(** * RVH Risk Predictor: a shallow embedding of [app.py]

    The Streamlit script is a single request/response cycle: on every rerun it
    (1) obtains the classifier handle through the cached [load_model],
    (2) reads the six sidebar widgets in [user_input_features] and assembles a
        one-row DataFrame in a fixed column order,
    (3) when the "Predict Risk" button was pressed, calls the handle's
        [predict_proba] on that frame and renders the result.

    Conventions of the embedding.
    - Floating-point values are modelled by exact rationals ([Q]).  Every
      comparison the script performs is exact on finite floats; the only
      arithmetic operation is the scaling [prediction_proba * 100], which
      [predict_body] takes as exact and [predict_body_with] rounds.
    - A one-row DataFrame is the ordered list of its columns, each paired with
      the value at index 0.
    - Python exceptions are values of type [exn]; code that may raise returns
      [exn + A].
    - The effects of a run are a trace: the Streamlit elements rendered, in
      order, and the calls made to the classifier.  Static page furniture
      (CSS, titles, sidebar headers, disclaimer) is not part of the trace.
    - [st.cache_resource] is the only state that survives a rerun. *)

From Stdlib Require Import ZArith QArith Qround String List Bool Lia
  Permutation.
Import ListNotations.

Local Open Scope string_scope.
Local Open Scope Q_scope.

(** ** Python values *)

(** The exceptions the script can meet, all of them subclasses of
    [Exception]: the two raised by indexing, the one Streamlit raises for a
    value it rejects, and whatever the external libraries ([joblib], the
    classifier) raise of their own. *)
Inductive exn : Type :=
| KeyError (labels : list string)
| IndexError (index : nat)
| StreamlitAPIException (value : Z)
| Exception (message : string).

Inductive scalar : Type :=
| PyInt (z : Z)
| PyFloat (q : Q).

Definition scalar_Q (v : scalar) : Q :=
  match v with
  | PyInt z => inject_Z z
  | PyFloat q => q
  end.

(** [x < y] on numbers, as a boolean. *)
Definition Qltb (x y : Q) : bool := negb (Qle_bool y x).

(** Python's [min(a, b)]: the first argument unless the second is smaller. *)
Definition py_min (a b : Q) : Q := if Qltb b a then b else a.

(** Python's [int(x)]: truncation towards zero. *)
Definition py_int (x : Q) : Z := Z.quot (Qnum x) (Z.pos (Qden x)).

(** [seq[i]] for a non-negative index. *)
Definition getitem {A : Type} (l : list A) (i : nat) : exn + A :=
  match nth_error l i with
  | Some a => inr a
  | None => inl (IndexError i)
  end.

(** ** One-row DataFrames *)

Definition DataFrame : Type := list (string * scalar).

Definition columns (df : DataFrame) : list string := map fst df.

Definition values (df : DataFrame) : list scalar := map snd df.

Fixpoint lookup (label : string) (df : DataFrame) : option scalar :=
  match df with
  | [] => None
  | (c, v) :: rest => if String.eqb c label then Some v else lookup label rest
  end.

(** [pd.DataFrame(data, index=[0])] for a dict of scalars: one column per key,
    in the dict's insertion order. *)
Definition pd_DataFrame (data : list (string * scalar)) : DataFrame := data.

Definition missing (df : DataFrame) (labels : list string) : list string :=
  filter (fun c => match lookup c df with None => true | Some _ => false end)
         labels.

Fixpoint take_columns (df : DataFrame) (labels : list string)
  : option DataFrame :=
  match labels with
  | [] => Some []
  | c :: cs =>
      match lookup c df, take_columns df cs with
      | Some v, Some rest => Some ((c, v) :: rest)
      | _, _ => None
      end
  end.

(** [df[labels]] with a list of labels: the named columns in the order asked
    for, or [KeyError] when a label is not a column. *)
Definition getitem_columns (df : DataFrame) (labels : list string)
  : exn + DataFrame :=
  match take_columns df labels with
  | Some selected => inr selected
  | None => inl (KeyError (missing df labels))
  end.

(** [df[label][0]]. *)
Definition getitem_cell (df : DataFrame) (label : string) : exn + scalar :=
  match lookup label df with
  | Some v => inr v
  | None => inl (KeyError [label])
  end.

(** ** The classifier handle *)

(** What [joblib.load] returns is opaque to the script, which uses two things
    of it: its truth value ([if model:]) and [predict_proba], which returns an
    array of shape (samples, classes) or raises. *)
Record Model : Type := {
  truthy : bool;
  predict_proba : DataFrame -> exn + list (list Q)
}.

(** [model.predict_proba(input_df)[0][1]] *)
Definition prediction_proba (model : Model) (input_df : DataFrame) : exn + Q :=
  match predict_proba model input_df with
  | inl e => inl e
  | inr proba =>
      match getitem proba 0 with
      | inl e => inl e
      | inr row => getitem row 1
      end
  end.

(** ** Rendered elements and traces *)

Inductive risk_category : Type := HighRisk | LowRisk.

(** The argument of [st.error]: a literal, or an f-string ending in the
    caught exception. *)
Inductive text : Type :=
| Lit (s : string)
| Fmt (prefix : string) (e : exn).

Inductive element : Type :=
| error (body : text)
| markdown (body : string)
| result_card (category : risk_category) (risk_percent : Q)
| subheader (body : string)
| write (body : string)
| progress (value : Z)
| warning (body : string)
| success (body : string).

Inductive event : Type :=
| St (e : element)
| PredictProba (X : DataFrame).

Definition Trace : Type := list event.

(** Code that renders elements and may raise: the elements rendered before an
    exception stay on the page. *)
Definition run (A : Type) : Type := (Trace * (exn + A))%type.

Definition ret {A : Type} (a : A) : run A := ([], inr a).

Definition raise {A : Type} (e : exn) : run A := ([], inl e).

Definition bind {A B : Type} (m : run A) (k : A -> run B) : run B :=
  match snd m with
  | inl e => (fst m, inl e)
  | inr a => ((fst m ++ fst (k a))%list, snd (k a))
  end.

Definition lift {A : Type} (r : exn + A) : run A := ([], r).

Definition emit (e : element) : run unit := ([St e], inr tt).

Definition when (b : bool) (m : run unit) : run unit :=
  if b then m else ret tt.

Notation "x <- m ;; k" := (bind m (fun x => k))
  (at level 61, m at next level, right associativity).
Notation "m ;; k" := (bind m (fun _ => k))
  (at level 61, right associativity).

(** ** 3. Loading the model *)

Definition nl : string := String (Ascii.ascii_of_nat 10) EmptyString.

Definition load_failed_prefix : string :=
  String.append
    "无法加载模型文件，请确保 'xgboost_outcome_model.pkl' 在当前目录下。"
    (String.append nl "错误详情: ").

(** [load_model], given what [joblib.load('xgboost_outcome_model.pkl')] does
    on the current file system: the handle ([None] when loading raised) and
    the elements rendered while loading. *)
Definition load_model (joblib_load : exn + Model) : option Model * Trace :=
  match joblib_load with
  | inr model => (Some model, [])
  | inl e => (None, [St (error (Fmt load_failed_prefix e))])
  end.

(** [@st.cache_resource]: the first call runs the function and stores its
    return value together with the elements it rendered; later calls replay
    the stored result without running the function. *)
Definition Cache : Type := option (option Model * Trace).

Definition cached_load_model (joblib_load : exn + Model) (cache : Cache)
  : (option Model * Trace) * Cache :=
  match cache with
  | Some stored => (stored, cache)
  | None => (load_model joblib_load, Some (load_model joblib_load))
  end.

(** ** 4. Sidebar: the input widgets *)

Record NumberInput : Type := {
  ni_label : string;
  min_value : Q;
  max_value : Q;
  value : Q;
  step : Q
}.

Record SelectBox : Type := {
  sb_label : string;
  options : list string;
  index : nat
}.

(** A widget the user has not touched holds [None] and shows its declared
    default. *)
Definition number_input (w : NumberInput) (entered : option Q) : Q :=
  match entered with
  | Some v => v
  | None => value w
  end.

Definition selectbox (w : SelectBox) (chosen : option nat) : string :=
  match chosen with
  | Some i => nth i (options w) ""
  | None => nth (index w) (options w) ""
  end.

Definition hba1c_widget : NumberInput :=
  {| ni_label := "HbA1c (%)";
     min_value := 3.0; max_value := 20.0; value := 7.5; step := 0.1 |}.

Definition bmi_widget : NumberInput :=
  {| ni_label := "BMI (kg/m²)";
     min_value := 10.0; max_value := 60.0; value := 24.5; step := 0.1 |}.

Definition haemoglobin_widget : NumberInput :=
  {| ni_label := "Haemoglobin (g/L)";
     min_value := 50.0; max_value := 200.0; value := 135.0; step := 1.0 |}.

Definition active_neo_widget : SelectBox :=
  {| sb_label := "Active Neovascularisation";
     options := ["No"; "Yes"]; index := 0 |}.

Definition htn_widget : SelectBox :=
  {| sb_label := "Hypertension"; options := ["No"; "Yes"]; index := 1 |}.

Definition cvd_widget : SelectBox :=
  {| sb_label := "History of Cardiovascular Disease";
     options := ["No"; "Yes"]; index := 0 |}.

(** The state of the six sidebar widgets at a rerun. *)
Record Widgets : Type := {
  hba1c_state : option Q;
  bmi_state : option Q;
  haemoglobin_state : option Q;
  active_neo_state : option nat;
  htn_state : option nat;
  cvd_state : option nat
}.

(** What the widgets let through: a number inside the declared bounds, an
    option of the box. *)
Definition in_bounds (w : NumberInput) (entered : option Q) : Prop :=
  min_value w <= number_input w entered /\
  number_input w entered <= max_value w.

Definition is_option (w : SelectBox) (chosen : option nat) : Prop :=
  In (selectbox w chosen) (options w).

(** [1 if choice == "Yes" else 0] *)
Definition yes_to_int (choice : string) : Z :=
  if String.eqb choice "Yes" then 1%Z else 0%Z.

Definition expected_order : list string :=
  [ "Haemoglobin";
    "Active.neovascularisation";
    "History.of.cardiovascular.disease";
    "HbA1c";
    "BMI";
    "Hypertension" ].

Definition naming_error_prefix : string :=
  "代码内部错误：列名拼写不匹配。详细信息: ".

(** The [try: features = features[expected_order] / except KeyError] block:
    the frame bound to [features] afterwards and what was rendered. *)
Definition force_order (features : DataFrame) (order : list string)
  : DataFrame * Trace :=
  match getitem_columns features order with
  | inr ordered => (ordered, [])
  | inl e => (features, [St (error (Fmt naming_error_prefix e))])
  end.

Definition user_input_features (w : Widgets) : DataFrame * Trace :=
  let hba1c := number_input hba1c_widget (hba1c_state w) in
  let bmi := number_input bmi_widget (bmi_state w) in
  let haemoglobin := number_input haemoglobin_widget (haemoglobin_state w) in
  let active_neo_input := selectbox active_neo_widget (active_neo_state w) in
  let active_neo := yes_to_int active_neo_input in
  let htn_input := selectbox htn_widget (htn_state w) in
  let hypertension := yes_to_int htn_input in
  let cvd_input := selectbox cvd_widget (cvd_state w) in
  let history_cv := yes_to_int cvd_input in
  let data :=
    [ ("Haemoglobin", PyFloat haemoglobin);
      ("Active.neovascularisation", PyInt active_neo);
      ("History.of.cardiovascular.disease", PyInt history_cv);
      ("HbA1c", PyFloat hba1c);
      ("BMI", PyFloat bmi);
      ("Hypertension", PyInt hypertension) ] in
  let features := pd_DataFrame data in
  force_order features expected_order.

(** ** 6. Prediction *)

Definition neo_warning : string :=
  "⚠️ Active Neovascularisation is a significant risk factor.".

Definition hba1c_warning : string :=
  "⚠️ Elevated HbA1c suggests poor glycemic control.".

Definition reassurance : string :=
  "✅ Patient profile suggests lower likelihood of recurrence.".

Definition not_loaded : string :=
  "Model not loaded. Please check if the .pkl file exists.".

Definition prediction_error_prefix : string := "预测过程中发生错误: ".

Definition check_columns_hint : string :=
  "请检查输入的特征列名是否与模型完全匹配。".

(** [st.progress] takes an int between 0 and 100 and rejects any other. *)
Definition st_progress (v : Z) : run unit :=
  if ((0 <=? v) && (v <=? 100))%Z then emit (progress v)
  else raise (StreamlitAPIException v).

Definition call_prediction_proba (model : Model) (input_df : DataFrame)
  : run Q :=
  ([PredictProba input_df], prediction_proba model input_df).

(** The body of the [try]. *)
Definition predict_body (model : Model) (input_df : DataFrame) : run unit :=
  prediction_proba <- call_prediction_proba model input_df ;;
  let risk_percent := prediction_proba * 100 in
  emit (markdown "---") ;;
  emit (subheader "Prediction Result") ;;
  (if Qltb 50 risk_percent
   then emit (result_card HighRisk risk_percent)
   else emit (result_card LowRisk risk_percent)) ;;
  emit (subheader "Risk Analysis") ;;
  emit (write "Risk Confidence Level:") ;;
  st_progress (py_int (py_min risk_percent 100)) ;;
  emit (write "**Contributing Factors:**") ;;
  active_neo <- lift (getitem_cell input_df "Active.neovascularisation") ;;
  when (Qeq_bool (scalar_Q active_neo) 1) (emit (warning neo_warning)) ;;
  hba1c <- lift (getitem_cell input_df "HbA1c") ;;
  when (Qltb 8.0 (scalar_Q hba1c)) (emit (warning hba1c_warning)) ;;
  when (Qltb risk_percent 50) (emit (success reassurance)).

(** [try: ... except Exception as e: ...] *)
Definition try_predict (model : Model) (input_df : DataFrame) : Trace :=
  match snd (predict_body model input_df) with
  | inr _ => fst (predict_body model input_df)
  | inl e =>
      (fst (predict_body model input_df)
       ++ [St (error (Fmt prediction_error_prefix e));
           St (write check_columns_hint)])%list
  end.

(** The body of [if st.button(...)]. *)
Definition predict_button (model : option Model) (input_df : DataFrame)
  : Trace :=
  match model with
  | Some m =>
      if truthy m then try_predict m input_df
      else [St (error (Lit not_loaded))]
  | None => [St (error (Lit not_loaded))]
  end.

(** ** One rerun of the script *)

Definition script (joblib_load : exn + Model) (cache : Cache)
  (w : Widgets) (clicked : bool) : Trace * Cache :=
  let loaded := cached_load_model joblib_load cache in
  let model := fst (fst loaded) in
  let input := user_input_features w in
  let input_df := fst input in
  ((snd (fst loaded) ++ snd input
    ++ (if clicked then predict_button model input_df else []))%list,
   snd loaded).

(** ** Concrete inputs used below *)

(** A session in which no widget has been touched. *)
Definition untouched : Widgets :=
  {| hba1c_state := None; bmi_state := None; haemoglobin_state := None;
     active_neo_state := None; htn_state := None; cvd_state := None |}.

Definition default_record : DataFrame :=
  [ ("Haemoglobin", PyFloat 135.0);
    ("Active.neovascularisation", PyInt 0);
    ("History.of.cardiovascular.disease", PyInt 0);
    ("HbA1c", PyFloat 7.5);
    ("BMI", PyFloat 24.5);
    ("Hypertension", PyInt 1) ].

(** A state the sidebar can be in after the user changed every widget. *)
Definition edited : Widgets :=
  {| hba1c_state := Some 9.0; bmi_state := Some 31.2;
     haemoglobin_state := Some 118.0;
     active_neo_state := Some 1%nat; htn_state := Some 0%nat;
     cvd_state := Some 1%nat |}.

(** Scenario A: active neovascularisation and an HbA1c of 9.0. *)
Definition scenario_a : DataFrame :=
  [ ("Haemoglobin", PyFloat 135.0);
    ("Active.neovascularisation", PyInt 1);
    ("History.of.cardiovascular.disease", PyInt 0);
    ("HbA1c", PyFloat 9.0);
    ("BMI", PyFloat 24.5);
    ("Hypertension", PyInt 1) ].

(** A frame whose HbA1c column was misspelt. *)
Definition misspelt : DataFrame :=
  [ ("Haemoglobin", PyFloat 135.0);
    ("Active.neovascularisation", PyInt 0);
    ("History.of.cardiovascular.disease", PyInt 0);
    ("HbA1C", PyFloat 7.5);
    ("BMI", PyFloat 24.5);
    ("Hypertension", PyInt 1) ].

(** A handle whose classifier answers every record with the given
    positive-class probability. *)
Definition constant_model (p : Q) : Model :=
  {| truthy := true; predict_proba := fun _ => inr [[1 - p; p]] |}.

(** A handle whose classifier rejects every record. *)
Definition failing_model (e : exn) : Model :=
  {| truthy := true; predict_proba := fun _ => inl e |}.

(** The five elements that are on the page once the estimate is known, before
    the progress bar is drawn. *)
Definition result_column (risk_percent : Q) : Trace :=
  [ St (markdown "---");
    St (subheader "Prediction Result");
    St (result_card (if Qltb 50 risk_percent then HighRisk else LowRisk)
                    risk_percent);
    St (subheader "Risk Analysis");
    St (write "Risk Confidence Level:") ].

(** What a trace shows. *)
Definition is_call (ev : event) : bool :=
  match ev with PredictProba _ => true | St _ => false end.

Fixpoint cards (t : Trace) : list (risk_category * Q) :=
  match t with
  | [] => []
  | St (result_card c r) :: rest => (c, r) :: cards rest
  | _ :: rest => cards rest
  end.

Fixpoint indicators (t : Trace) : list Z :=
  match t with
  | [] => []
  | St (progress v) :: rest => v :: indicators rest
  | _ :: rest => indicators rest
  end.

Fixpoint advisories (t : Trace) : list element :=
  match t with
  | [] => []
  | St (warning s) :: rest => warning s :: advisories rest
  | St (success s) :: rest => success s :: advisories rest
  | _ :: rest => advisories rest
  end.

(** A frame with its columns in another order and one column too many. *)
Definition shuffled : DataFrame :=
  [ ("Hypertension", PyInt 1);
    ("BMI", PyFloat 24.5);
    ("Age", PyInt 61);
    ("HbA1c", PyFloat 7.5);
    ("History.of.cardiovascular.disease", PyInt 0);
    ("Haemoglobin", PyFloat 135.0);
    ("Active.neovascularisation", PyInt 0) ].

(** The dict of [user_input_features] at the defaults, its items written in
    reverse. *)
Definition reversed_data : list (string * scalar) := rev default_record.

(** ** The prediction with the product as the machine computes it *)

(** [prediction_proba * 100] is a floating-point product: the exact product
    rounded to the format of the operands.  [round] is that rounding, as a
    function on the values; everything after the product -- the comparisons,
    [min], [int] -- is exact.  [predict_body] is the case of a product that
    needs no rounding. *)
Definition predict_body_with (round : Q -> Q)
  (model : Model) (input_df : DataFrame) : run unit :=
  prediction_proba <- call_prediction_proba model input_df ;;
  let risk_percent := round (prediction_proba * 100) in
  emit (markdown "---") ;;
  emit (subheader "Prediction Result") ;;
  (if Qltb 50 risk_percent
   then emit (result_card HighRisk risk_percent)
   else emit (result_card LowRisk risk_percent)) ;;
  emit (subheader "Risk Analysis") ;;
  emit (write "Risk Confidence Level:") ;;
  st_progress (py_int (py_min risk_percent 100)) ;;
  emit (write "**Contributing Factors:**") ;;
  active_neo <- lift (getitem_cell input_df "Active.neovascularisation") ;;
  when (Qeq_bool (scalar_Q active_neo) 1) (emit (warning neo_warning)) ;;
  hba1c <- lift (getitem_cell input_df "HbA1c") ;;
  when (Qltb 8.0 (scalar_Q hba1c)) (emit (warning hba1c_warning)) ;;
  when (Qltb risk_percent 50) (emit (success reassurance)).

Definition try_predict_with (round : Q -> Q)
  (model : Model) (input_df : DataFrame) : Trace :=
  match snd (predict_body_with round model input_df) with
  | inr _ => fst (predict_body_with round model input_df)
  | inl e =>
      (fst (predict_body_with round model input_df)
       ++ [St (error (Fmt prediction_error_prefix e));
           St (write check_columns_hint)])%list
  end.

Definition predict_button_with (round : Q -> Q)
  (model : option Model) (input_df : DataFrame) : Trace :=
  match model with
  | Some m =>
      if truthy m then try_predict_with round m input_df
      else [St (error (Lit not_loaded))]
  | None => [St (error (Lit not_loaded))]
  end.

(** Rounding to the nearest multiple of [1/k], for trying the above on
    concrete numbers: with [k = 2^19] it is the spacing of single-precision
    floats between 16 and 32. *)
Definition nearest_on_grid (k : positive) (x : Q) : Q :=
  Qmake (Qfloor (x * (Z.pos k # 1) + (1 # 2))) k.

(** The single-precision float nearest to 0.29. *)
Definition float32_0_29 : Q := 9730785 # 33554432.

(** The frames handed to the classifier, in call order. *)
Fixpoint calls (t : Trace) : list DataFrame :=
  match t with
  | [] => []
  | PredictProba X :: rest => X :: calls rest
  | St _ :: rest => calls rest
  end.

(** The elements on the page, in render order. *)
Fixpoint rendered (t : Trace) : list element :=
  match t with
  | [] => []
  | St e :: rest => e :: rendered rest
  | PredictProba _ :: rest => rendered rest
  end.

(** ** A session: successive reruns of the script sharing the cache *)

(** What one rerun finds: what [joblib.load] would do on the file system of
    that moment, the sidebar, and whether the button was pressed. *)
Record Interaction : Type := {
  on_disk : exn + Model;
  sidebar : Widgets;
  pressed : bool
}.

Fixpoint session (cache : Cache) (steps : list Interaction)
  : list Trace * Cache :=
  match steps with
  | [] => ([], cache)
  | i :: rest =>
      let r := script (on_disk i) cache (sidebar i) (pressed i) in
      let rs := session (snd r) rest in
      (fst r :: fst rs, snd rs)
  end.

(** Two reruns: nothing pressed while the artifact cannot be loaded, then a
    press once a loadable artifact is in place. *)
Definition artifact_missing : Interaction :=
  {| on_disk := inl (Exception "No such file or directory");
     sidebar := untouched; pressed := false |}.

Definition press_after_repair : Interaction :=
  {| on_disk := inr (constant_model 0.2);
     sidebar := edited; pressed := true |}.

(** Two reruns: a first one that loads the model, then a press after the
    artifact has gone. *)
Definition artifact_present : Interaction :=
  {| on_disk := inr (constant_model 0.2);
     sidebar := untouched; pressed := false |}.

Definition press_after_removal : Interaction :=
  {| on_disk := inl (Exception "No such file or directory");
     sidebar := edited; pressed := true |}.

(** * Properties *)

(** ** Numbers *)

Lemma Qltb_lt (x y : Q) : Qltb x y = true <-> x < y.
Proof.
  unfold Qltb. rewrite negb_true_iff. split.
  - intros H. apply Qnot_le_lt. intros Hle.
    apply Qle_bool_iff in Hle. congruence.
  - intros H. destruct (Qle_bool y x) eqn:E; [|reflexivity].
    apply Qle_bool_iff in E. exfalso. exact (Qlt_not_le _ _ H E).
Qed.

Lemma Qltb_ge (x y : Q) : Qltb x y = false <-> y <= x.
Proof.
  unfold Qltb. rewrite negb_false_iff. apply Qle_bool_iff.
Qed.

Lemma py_min_le_r (a b : Q) : py_min a b <= b.
Proof.
  unfold py_min. destruct (Qltb b a) eqn:E.
  - apply Qle_refl.
  - apply Qltb_ge in E. exact E.
Qed.

Lemma py_min_le_l (a b : Q) : py_min a b <= a.
Proof.
  unfold py_min. destruct (Qltb b a) eqn:E.
  - apply Qltb_lt in E. apply Qlt_le_weak. exact E.
  - apply Qle_refl.
Qed.


Lemma py_min_below (a b : Q) : a <= b -> py_min a b = a.
Proof.
  intros H. unfold py_min. apply Qltb_ge in H. rewrite H. reflexivity.
Qed.

(** Truncation is monotone on the bounds that matter here. *)
Lemma py_int_le (x : Q) (n : Z) : x <= inject_Z n -> (py_int x <= n)%Z.
Proof.
  destruct x as [a d]. unfold Qle, py_int. simpl. intros H.
  rewrite Z.mul_1_r in H.
  pose proof (Z.quot_rem' a (Z.pos d)) as Hqr.
  destruct (Z_lt_le_dec a 0) as [Hneg|Hpos].
  - pose proof (Z.rem_bound_pos_neg a (Z.pos d) ltac:(lia) ltac:(lia)). nia.
  - pose proof (Z.rem_bound_pos a (Z.pos d) Hpos ltac:(lia)). nia.
Qed.

Lemma py_int_nonneg (x : Q) : 0 <= x -> (0 <= py_int x)%Z.
Proof.
  destruct x as [a d]. unfold Qle, py_int. simpl. intros H.
  apply Z.quot_pos; lia.
Qed.

(** ** The prediction step, case by case *)

Ltac run_unfold :=
  unfold predict_button, try_predict, predict_body, call_prediction_proba,
    st_progress, bind, emit, lift, when, ret, raise, getitem_cell;
  simpl.

Ltac run_cases :=
  repeat match goal with
    | |- context [match lookup ?l ?d with _ => _ end] =>
        destruct (lookup l d) eqn:?; simpl
    | |- context [if ?b then _ else _] => destruct b eqn:?; simpl
    end.

Lemma try_predict_estimated (m : Model) (df : DataFrame) (p : Q) :
  prediction_proba m df = inr p ->
  exists rest,
    try_predict m df
    = (PredictProba df :: result_column (p * 100) ++ rest)%list /\
    cards rest = [] /\
    forallb (fun ev => negb (is_call ev)) rest = true.
Proof.
  intros Hp. run_unfold. rewrite Hp. simpl. unfold result_column.
  destruct (Qltb 50 (p * 100)) eqn:Hc; simpl; run_cases;
    eexists; (split; [reflexivity | split; reflexivity]).
Qed.

Lemma try_predict_failed (m : Model) (df : DataFrame) (e : exn) :
  prediction_proba m df = inl e ->
  try_predict m df
  = [ PredictProba df;
      St (error (Fmt prediction_error_prefix e));
      St (write check_columns_hint) ].
Proof.
  intros He. run_unfold. rewrite He. reflexivity.
Qed.

Lemma cards_app (t u : Trace) :
  cards (t ++ u)%list = (cards t ++ cards u)%list.
Proof.
  induction t as [|[[]|] t IH]; simpl; try rewrite IH; reflexivity.
Qed.

Lemma forallb_no_call_app (t u : Trace) :
  forallb (fun ev => negb (is_call ev)) t = true ->
  forallb (fun ev => negb (is_call ev)) u = true ->
  forallb (fun ev => negb (is_call ev)) (t ++ u)%list = true.
Proof.
  intros Ht Hu. rewrite forallb_app, Ht, Hu. reflexivity.
Qed.

(** ** The script on concrete inputs *)

Example untouched_sidebar :
  user_input_features untouched = (default_record, []).
Proof. reflexivity. Qed.

Example edited_sidebar :
  values (fst (user_input_features edited))
  = [PyFloat 118.0; PyInt 1; PyInt 1; PyFloat 9.0; PyFloat 31.2; PyInt 0].
Proof. reflexivity. Qed.

Example scenario_a_low_risk :
  predict_button (Some (constant_model 0.2)) scenario_a
  = [ PredictProba scenario_a;
      St (markdown "---");
      St (subheader "Prediction Result");
      St (result_card LowRisk (0.2 * 100));
      St (subheader "Risk Analysis");
      St (write "Risk Confidence Level:");
      St (progress 20);
      St (write "**Contributing Factors:**");
      St (warning neo_warning);
      St (warning hba1c_warning);
      St (success reassurance) ].
Proof. reflexivity. Qed.

Example scenario_a_high_risk :
  predict_button (Some (constant_model 0.875)) scenario_a
  = [ PredictProba scenario_a;
      St (markdown "---");
      St (subheader "Prediction Result");
      St (result_card HighRisk (0.875 * 100));
      St (subheader "Risk Analysis");
      St (write "Risk Confidence Level:");
      St (progress 87);
      St (write "**Contributing Factors:**");
      St (warning neo_warning);
      St (warning hba1c_warning) ].
Proof. reflexivity. Qed.

(** A single-column answer: the indexing [[0][1]] raises inside the [try]. *)
Example one_class_answer :
  predict_button
    (Some {| truthy := true; predict_proba := fun _ => inr [[1]] |})
    default_record
  = [ PredictProba default_record;
      St (error (Fmt prediction_error_prefix (IndexError 1)));
      St (write check_columns_hint) ].
Proof. reflexivity. Qed.

(** A negative answer: the card is already on the page when [st.progress]
    rejects its value. *)
Example negative_answer :
  predict_button (Some (constant_model (-0.5))) default_record
  = [ PredictProba default_record;
      St (markdown "---");
      St (subheader "Prediction Result");
      St (result_card LowRisk (-0.5 * 100));
      St (subheader "Risk Analysis");
      St (write "Risk Confidence Level:");
      St (error (Fmt prediction_error_prefix (StreamlitAPIException (-50))));
      St (write check_columns_hint) ].
Proof. reflexivity. Qed.

(** ** The collector *)

(** The six dict keys are the six expected labels, so the reordering never
    raises: [user_input_features] renders nothing. *)
Lemma user_input_features_silent (w : Widgets) :
  snd (user_input_features w) = [].
Proof. reflexivity. Qed.

Lemma user_input_features_record (w : Widgets) :
  fst (user_input_features w)
  = [ ("Haemoglobin",
       PyFloat (number_input haemoglobin_widget (haemoglobin_state w)));
      ("Active.neovascularisation",
       PyInt (yes_to_int (selectbox active_neo_widget (active_neo_state w))));
      ("History.of.cardiovascular.disease",
       PyInt (yes_to_int (selectbox cvd_widget (cvd_state w))));
      ("HbA1c", PyFloat (number_input hba1c_widget (hba1c_state w)));
      ("BMI", PyFloat (number_input bmi_widget (bmi_state w)));
      ("Hypertension",
       PyInt (yes_to_int (selectbox htn_widget (htn_state w)))) ].
Proof. reflexivity. Qed.

Lemma take_columns_None (df : DataFrame) (labels : list string) (c : string) :
  In c labels -> lookup c df = None -> take_columns df labels = None.
Proof.
  induction labels as [|l ls IH]; simpl; [tauto|].
  intros [->|Hin] Hc.
  - rewrite Hc. reflexivity.
  - rewrite (IH Hin Hc). destruct (lookup l df); reflexivity.
Qed.

Lemma missing_In (df : DataFrame) (labels : list string) (c : string) :
  In c labels -> lookup c df = None -> In c (missing df labels).
Proof.
  intros Hin Hc. unfold missing. apply filter_In. split; [exact Hin|].
  rewrite Hc. reflexivity.
Qed.

(** C1 (Scenario C).  Whenever the three select boxes read "No", "Yes", "No"
    and the three number inputs read 7.5, 24.5 and 135.0,
    [user_input_features] returns the record
    [135.0, 0, 0, 7.5, 24.5, 1] under the six expected column labels, and
    that very frame is the argument of the single [predict_proba] call a
    button press makes. *)
Theorem defaults_give_default_record (w : Widgets) :
  selectbox active_neo_widget (active_neo_state w) = "No" ->
  selectbox htn_widget (htn_state w) = "Yes" ->
  selectbox cvd_widget (cvd_state w) = "No" ->
  number_input hba1c_widget (hba1c_state w) = 7.5 ->
  number_input bmi_widget (bmi_state w) = 24.5 ->
  number_input haemoglobin_widget (haemoglobin_state w) = 135.0 ->
  user_input_features w = (default_record, []) /\
  values default_record
  = [PyFloat 135.0; PyInt 0; PyInt 0; PyFloat 7.5; PyFloat 24.5; PyInt 1] /\
  columns default_record = expected_order /\
  forall (joblib_load : exn + Model) (cache : Cache) (model : Model),
    fst (fst (cached_load_model joblib_load cache)) = Some model ->
    truthy model = true ->
    exists rest,
      fst (script joblib_load cache w true)
      = (snd (fst (cached_load_model joblib_load cache))
         ++ PredictProba default_record :: rest)%list /\
      forallb (fun ev => negb (is_call ev)) rest = true.
Proof.
  intros Hneo Hhtn Hcvd Hhba1c Hbmi Hhb.
  assert (Hrec : user_input_features w = (default_record, [])).
  { rewrite (surjective_pairing (user_input_features w)).
    rewrite user_input_features_record, user_input_features_silent.
    rewrite Hneo, Hhtn, Hcvd, Hhba1c, Hbmi, Hhb. reflexivity. }
  split; [exact Hrec|]. split; [reflexivity|]. split; [reflexivity|].
  intros joblib_load cache model Hload Htruthy.
  unfold script. rewrite Hrec, Hload. simpl.
  rewrite Htruthy.
  destruct (prediction_proba model default_record) as [e|p] eqn:Hp.
  - rewrite (try_predict_failed _ _ _ Hp). eexists. split; reflexivity.
  - destruct (try_predict_estimated _ _ _ Hp) as (rest & -> & _ & Hcalls).
    eexists. split; [reflexivity|].
    apply forallb_no_call_app; [reflexivity | exact Hcalls].
Qed.

Lemma defaults_give_default_record_witness :
  user_input_features untouched = (default_record, []).
Proof.
  exact (proj1 (defaults_give_default_record untouched
                  eq_refl eq_refl eq_refl eq_refl eq_refl eq_refl)).
Defined.

(** C2.  For every widget state whose numbers lie inside the declared bounds
    and whose choices are options of their boxes, [user_input_features]
    returns a record of exactly six fields, labelled and ordered
    Haemoglobin, Active.neovascularisation,
    History.of.cardiovascular.disease, HbA1c, BMI, Hypertension, each holding
    the value of its own widget. *)
Theorem record_has_six_fields_in_order (w : Widgets) :
  in_bounds haemoglobin_widget (haemoglobin_state w) ->
  in_bounds hba1c_widget (hba1c_state w) ->
  in_bounds bmi_widget (bmi_state w) ->
  is_option active_neo_widget (active_neo_state w) ->
  is_option htn_widget (htn_state w) ->
  is_option cvd_widget (cvd_state w) ->
  let record := fst (user_input_features w) in
  length record = 6%nat /\
  columns record
  = [ "Haemoglobin"; "Active.neovascularisation";
      "History.of.cardiovascular.disease"; "HbA1c"; "BMI"; "Hypertension" ] /\
  values record
  = [ PyFloat (number_input haemoglobin_widget (haemoglobin_state w));
      PyInt (yes_to_int (selectbox active_neo_widget (active_neo_state w)));
      PyInt (yes_to_int (selectbox cvd_widget (cvd_state w)));
      PyFloat (number_input hba1c_widget (hba1c_state w));
      PyFloat (number_input bmi_widget (bmi_state w));
      PyInt (yes_to_int (selectbox htn_widget (htn_state w))) ] /\
  snd (user_input_features w) = [].
Proof.
  intros _ _ _ _ _ _ record. subst record.
  rewrite user_input_features_record. repeat split.
Qed.

Lemma record_has_six_fields_in_order_witness :
  columns (fst (user_input_features edited)) = expected_order.
Proof.
  refine (proj1 (proj2 (record_has_six_fields_in_order edited _ _ _ _ _ _)));
    unfold in_bounds, is_option, Qle; simpl; first [lia | tauto].
Defined.

(** C5.  When a label of the expected order matches no column of the frame,
    the reordering block renders the internal-error message carrying the
    [KeyError], which names the unmatched label; the frame it leaves bound to
    [features] is the one it was given. *)
Theorem unmatched_column_is_reported
  (features : DataFrame) (order : list string) (c : string) :
  In c order ->
  lookup c features = None ->
  force_order features order
  = (features,
     [St (error (Fmt naming_error_prefix (KeyError (missing features order))))])
  /\ In c (missing features order).
Proof.
  intros Hin Hc. split.
  - unfold force_order, getitem_columns.
    rewrite (take_columns_None _ _ _ Hin Hc). reflexivity.
  - apply missing_In; assumption.
Qed.

Lemma unmatched_column_is_reported_witness :
  force_order misspelt expected_order
  = (misspelt, [St (error (Fmt naming_error_prefix (KeyError ["HbA1c"])))]).
Proof.
  refine (proj1 (unmatched_column_is_reported misspelt expected_order
                   "HbA1c" _ _)).
  - simpl. tauto.
  - reflexivity.
Defined.

(** ** The predictor *)

(** C4 (Scenario B).  [load_model] returns [None] when [joblib.load] raises,
    and with the handle [None] a button press renders the "Model not loaded"
    error and nothing else: no result card, no indicator, no advisory, and
    no call to [predict_proba]. *)
Theorem no_model_no_prediction (input_df : DataFrame) :
  let page := predict_button None input_df in
  page = [St (error (Lit not_loaded))] /\
  cards page = [] /\
  indicators page = [] /\
  advisories page = [] /\
  forallb (fun ev => negb (is_call ev)) page = true /\
  (forall e : exn, fst (load_model (inl e)) = None) /\
  (forall (e : exn) (w : Widgets),
      fst (script (inl e) None w true)
      = [ St (error (Fmt load_failed_prefix e));
          St (error (Lit not_loaded)) ]) /\
  (forall (joblib_load : exn + Model) (cache : Cache) (w : Widgets),
      fst (fst (cached_load_model joblib_load cache)) = None ->
      fst (script joblib_load cache w true)
      = (snd (fst (cached_load_model joblib_load cache))
         ++ [St (error (Lit not_loaded))])%list).
Proof.
  repeat split.
  intros joblib_load cache w Hnone. unfold script.
  rewrite Hnone, user_input_features_silent. reflexivity.
Qed.

Lemma no_model_no_prediction_witness :
  fst (script (inl (Exception "No such file or directory"))
         (Some (None, [])) edited true)
  = [St (error (Lit not_loaded))].
Proof.
  refine (proj2 (proj2 (proj2 (proj2 (proj2 (proj2 (proj2
    (no_model_no_prediction [])))))))
    (inl (Exception "No such file or directory"))
    (Some (None, [])) edited _).
  reflexivity.
Defined.

Lemma cards_try_predict (m : Model) (df : DataFrame) (p : Q) :
  prediction_proba m df = inr p ->
  cards (try_predict m df)
  = [(if Qltb 50 (p * 100) then HighRisk else LowRisk, p * 100)].
Proof.
  intros Hp. destruct (try_predict_estimated _ _ _ Hp) as (rest & -> & Hc & _).
  simpl. rewrite Hc. reflexivity.
Qed.

(** The reassurance is rendered by the last statement of the [try] only, and
    only below 50. *)
Lemma success_only_below (m : Model) (df : DataFrame) (p : Q) (s : string) :
  prediction_proba m df = inr p ->
  In (St (success s)) (try_predict m df) ->
  Qltb (p * 100) 50 = true.
Proof.
  intros Hp. run_unfold. rewrite Hp. simpl.
  destruct (Qltb (p * 100) 50) eqn:Hlow; [reflexivity|].
  run_cases; intros Hin;
    repeat (destruct Hin as [Hin|Hin]; [discriminate Hin|]);
    destruct Hin.
Qed.

(** C3.  Once the classifier has answered with a positive-class probability,
    the page shows exactly one result card; it carries the percentage and is
    "High Risk" exactly when the percentage is strictly above 50, "Low Risk"
    otherwise.  A percentage of exactly 50 gives "Low Risk". *)
Theorem classification_threshold (m : Model) (df : DataFrame) (p : Q) :
  truthy m = true ->
  prediction_proba m df = inr p ->
  let risk_percent := p * 100 in
  exists category : risk_category,
    cards (predict_button (Some m) df) = [(category, risk_percent)] /\
    (category = HighRisk <-> 50 < risk_percent) /\
    (category = LowRisk <-> ~ 50 < risk_percent) /\
    (risk_percent == 50 -> category = LowRisk).
Proof.
  intros Htruthy Hp risk_percent. subst risk_percent.
  exists (if Qltb 50 (p * 100) then HighRisk else LowRisk).
  split.
  - simpl. rewrite Htruthy. apply cards_try_predict. exact Hp.
  - destruct (Qltb 50 (p * 100)) eqn:Hc.
    + apply Qltb_lt in Hc. repeat split; try tauto; try discriminate.
      intros Heq. rewrite Heq in Hc. destruct (Qlt_irrefl _ Hc).
    + apply Qltb_ge in Hc. repeat split; try tauto; try discriminate.
      * intros Hlt. destruct (Qlt_not_le _ _ Hlt Hc).
      * intros _. apply Qle_not_lt. exact Hc.
Qed.

Lemma classification_threshold_witness :
  cards (predict_button (Some (constant_model 0.5)) default_record)
  = [(LowRisk, 0.5 * 100)].
Proof.
  destruct (classification_threshold (constant_model 0.5) default_record 0.5
              eq_refl eq_refl) as (category & Hcards & _ & _ & Hlow).
  rewrite Hcards. rewrite (Hlow eq_refl). reflexivity.
Defined.

(** C10.  At a percentage of exactly 50 the single card on the page reads
    "Low Risk", and the reassurance message is not rendered. *)
Theorem boundary_low_risk_without_reassurance
  (m : Model) (df : DataFrame) (p : Q) :
  truthy m = true ->
  prediction_proba m df = inr p ->
  p * 100 == 50 ->
  let page := predict_button (Some m) df in
  cards page = [(LowRisk, p * 100)] /\
  ~ In (St (success reassurance)) page /\
  ~ In (success reassurance) (advisories page).
Proof.
  intros Htruthy Hp H50 page. subst page. simpl. rewrite Htruthy.
  assert (Hnot : ~ In (St (success reassurance)) (try_predict m df)).
  { intros Hin. apply (success_only_below _ _ _ _ Hp) in Hin.
    apply Qltb_lt in Hin. rewrite H50 in Hin.
    exact (Qlt_irrefl _ Hin). }
  split; [|split].
  - rewrite (cards_try_predict _ _ _ Hp).
    assert (Hc : Qltb 50 (p * 100) = false).
    { apply Qltb_ge. rewrite H50. apply Qle_refl. }
    rewrite Hc. reflexivity.
  - exact Hnot.
  - intros Hin. apply Hnot. clear -Hin.
    induction (try_predict m df) as [|[[]|] t IH]; simpl in *;
      try tauto; try (right; tauto).
    + destruct Hin as [Hin|Hin]; [discriminate Hin | right; tauto].
    + destruct Hin as [Hin|Hin];
        [left; inversion Hin; reflexivity | right; tauto].
Qed.

Lemma boundary_low_risk_without_reassurance_witness :
  cards (predict_button (Some (constant_model 0.5)) default_record)
  = [(LowRisk, 0.5 * 100)] /\
  ~ In (St (success reassurance))
       (predict_button (Some (constant_model 0.5)) default_record).
Proof.
  destruct (boundary_low_risk_without_reassurance
              (constant_model 0.5) default_record 0.5
              eq_refl eq_refl eq_refl) as (Hcards & Hnone & _).
  split; assumption.
Defined.


Lemma indicator_le_100 (r : Q) : (py_int (py_min r 100) <= 100)%Z.
Proof.
  apply py_int_le. apply py_min_le_r.
Qed.





(** The advisories of a run whose [try] body ran to its end. *)
Lemma advisories_completed
  (m : Model) (df : DataFrame) (neo hba1c : scalar) :
  snd (predict_body m df) = inr tt ->
  getitem_cell df "Active.neovascularisation" = inr neo ->
  getitem_cell df "HbA1c" = inr hba1c ->
  exists p : Q,
    prediction_proba m df = inr p /\
    advisories (try_predict m df)
    = ((if Qeq_bool (scalar_Q neo) 1 then [warning neo_warning] else [])
       ++ (if Qltb 8.0 (scalar_Q hba1c) then [warning hba1c_warning] else [])
       ++ (if Qltb (p * 100) 50 then [success reassurance] else []))%list.
Proof.
  intros Hdone Hneo Hh. unfold getitem_cell in Hneo, Hh.
  destruct (lookup "Active.neovascularisation" df) as [a|] eqn:Ea;
    [|discriminate Hneo].
  destruct (lookup "HbA1c" df) as [h|] eqn:Eh; [|discriminate Hh].
  injection Hneo as ->. injection Hh as ->.
  destruct (prediction_proba m df) as [e|p] eqn:Hp.
  - exfalso. revert Hdone. run_unfold. rewrite Hp. simpl.
    intros H. discriminate H.
  - exists p. split; [reflexivity|]. revert Hdone. run_unfold.
    rewrite Hp, Ea, Eh. simpl.
    run_cases; intros H; first [discriminate H | reflexivity].
Qed.



(** ** Reruns *)

Lemma cached_load_model_settled (joblib_load joblib_load' : exn + Model)
  (cache : Cache) :
  cached_load_model joblib_load' (snd (cached_load_model joblib_load cache))
  = (fst (cached_load_model joblib_load cache),
     snd (cached_load_model joblib_load cache)).
Proof.
  destruct cache; reflexivity.
Qed.

Lemma script_cache (joblib_load : exn + Model) (cache : Cache)
  (w : Widgets) (clicked : bool) :
  snd (script joblib_load cache w clicked)
  = snd (cached_load_model joblib_load cache).
Proof. reflexivity. Qed.

(** C8.  When the estimation raises -- [predict_proba] itself or the
    indexing of its result -- the press renders the prediction-error message
    carrying the exception, followed by the hint, and nothing else; the run
    ends normally.  The only state a run leaves behind is the resource cache,
    which a failed attempt leaves as any other run does: a populated cache is
    unchanged, and whatever is done next renders what it would have rendered
    without the failed attempt. *)
Theorem estimation_failure_is_caught
  (joblib_load : exn + Model) (cache : Cache) (w : Widgets)
  (m : Model) (e : exn) :
  fst (fst (cached_load_model joblib_load cache)) = Some m ->
  truthy m = true ->
  prediction_proba m (fst (user_input_features w)) = inl e ->
  let after := script joblib_load cache w true in
  fst after
  = (snd (fst (cached_load_model joblib_load cache))
     ++ [ PredictProba (fst (user_input_features w));
          St (error (Fmt prediction_error_prefix e));
          St (write check_columns_hint) ])%list /\
  snd after = snd (script joblib_load cache w false) /\
  (forall stored, cache = Some stored -> snd after = cache) /\
  (forall (joblib_load' : exn + Model) (w' : Widgets) (clicked : bool),
      fst (script joblib_load' (snd after) w' clicked)
      = fst (script joblib_load cache w' clicked)).
Proof.
  intros Hload Htruthy Hfail after. subst after.
  split; [|split; [reflexivity|split]].
  - unfold script. rewrite Hload, user_input_features_silent.
    unfold predict_button.
    rewrite Htruthy, (try_predict_failed _ _ _ Hfail). reflexivity.
  - intros stored ->. reflexivity.
  - intros joblib_load' w' clicked. rewrite script_cache.
    unfold script. rewrite cached_load_model_settled. reflexivity.
Qed.

Lemma estimation_failure_is_caught_witness :
  fst (script (inr (failing_model (Exception "feature_names mismatch")))
         None untouched true)
  = [ PredictProba default_record;
      St (error (Fmt prediction_error_prefix
                   (Exception "feature_names mismatch")));
      St (write check_columns_hint) ].
Proof.
  refine (proj1 (estimation_failure_is_caught
            (inr (failing_model (Exception "feature_names mismatch")))
            None untouched
            (failing_model (Exception "feature_names mismatch"))
            (Exception "feature_names mismatch") _ _ _)); reflexivity.
Defined.

(** * Further properties of the collector *)

Lemma lookup_In_columns (df : DataFrame) (c : string) :
  lookup c df <> None <-> In c (columns df).
Proof.
  induction df as [|[k v] df IH]; simpl.
  - split; [intros H; destruct (H eq_refl) | intros []].
  - destruct (String.eqb k c) eqn:E.
    + apply String.eqb_eq in E. split; [left; exact E | discriminate].
    + apply String.eqb_neq in E. rewrite IH. split; [right; assumption|].
      intros [H|H]; [destruct (E H) | exact H].
Qed.

Lemma take_columns_ext (d1 d2 : DataFrame) (labels : list string) :
  (forall c, In c labels -> lookup c d1 = lookup c d2) ->
  take_columns d1 labels = take_columns d2 labels.
Proof.
  induction labels as [|l ls IH]; simpl; intros H; [reflexivity|].
  rewrite (H l (or_introl eq_refl)), IH; [reflexivity|].
  intros c Hc. apply H. right. exact Hc.
Qed.

Lemma missing_ext (d1 d2 : DataFrame) (labels : list string) :
  (forall c, In c labels -> lookup c d1 = lookup c d2) ->
  missing d1 labels = missing d2 labels.
Proof.
  intros H. unfold missing. apply filter_ext_in.
  intros c Hc. rewrite (H c Hc). reflexivity.
Qed.

Lemma take_columns_Some (df : DataFrame) (labels : list string) :
  (forall c, In c labels -> lookup c df <> None) ->
  exists selected,
    take_columns df labels = Some selected /\
    columns selected = labels /\
    (forall c, In c labels -> lookup c selected = lookup c df).
Proof.
  induction labels as [|l ls IH]; simpl; intros H.
  - exists []. repeat split. intros c [].
  - destruct IH as (rest & Hrest & Hcols & Hlook).
    { intros c Hc. apply H. right. exact Hc. }
    destruct (lookup l df) as [v|] eqn:Hl.
    + rewrite Hrest. exists ((l, v) :: rest). split; [reflexivity|].
      split; [simpl; rewrite Hcols; reflexivity|].
      intros c Hc. simpl. destruct (String.eqb l c) eqn:E.
      * apply String.eqb_eq in E. subst c. symmetry. exact Hl.
      * apply String.eqb_neq in E. destruct Hc as [Hc|Hc];
          [destruct (E Hc) | apply Hlook; exact Hc].
    + destruct (H l (or_introl eq_refl) Hl).
Qed.

Lemma take_columns_columns (df selected : DataFrame) (labels : list string) :
  take_columns df labels = Some selected -> columns selected = labels.
Proof.
  revert selected. induction labels as [|l ls IH]; simpl; intros selected H.
  - injection H as <-. reflexivity.
  - destruct (lookup l df); [|discriminate H].
    destruct (take_columns df ls) as [rest|]; [|discriminate H].
    injection H as <-. simpl. rewrite (IH rest eq_refl). reflexivity.
Qed.

Lemma force_order_present (features : DataFrame) (order : list string) :
  (forall c, In c order -> lookup c features <> None) ->
  exists selected,
    force_order features order = (selected, []) /\
    columns selected = order /\
    (forall c, In c order -> lookup c selected = lookup c features).
Proof.
  intros Hall.
  destruct (take_columns_Some features order Hall) as (sel & Hsel & Hrest).
  exists sel. unfold force_order, getitem_columns. rewrite Hsel.
  split; [reflexivity | exact Hrest].
Qed.

(** Reordering, when it succeeds.  For a frame that has every label asked
    for -- in any column order, with any further columns -- the reordering
    block renders nothing and leaves a frame whose columns are exactly the
    labels asked for, in that order, each holding the value the frame had
    under that label; further columns are dropped. *)
Theorem force_order_selects (features : DataFrame) (order : list string) :
  (forall c, In c order -> In c (columns features)) ->
  snd (force_order features order) = [] /\
  columns (fst (force_order features order)) = order /\
  (forall c, In c order ->
             lookup c (fst (force_order features order)) = lookup c features) /\
  (forall c, ~ In c order ->
             lookup c (fst (force_order features order)) = None).
Proof.
  intros Hall.
  destruct (force_order_present features order) as (sel & -> & Hcols & Hlook).
  { intros c Hc. apply lookup_In_columns. apply Hall. exact Hc. }
  simpl. repeat split; auto.
  intros c Hc. destruct (lookup c sel) eqn:E; [|reflexivity].
  exfalso. apply Hc. rewrite <- Hcols. apply lookup_In_columns.
  rewrite E. discriminate.
Qed.

Lemma force_order_selects_witness :
  columns (fst (force_order shuffled expected_order)) = expected_order /\
  lookup "Age" (fst (force_order shuffled expected_order)) = None.
Proof.
  destruct (force_order_selects shuffled expected_order)
    as (_ & Hcols & _ & Hdrop).
  { simpl. tauto. }
  split; [exact Hcols | apply Hdrop; simpl; intuition discriminate].
Defined.

(** The internal-error message is rendered exactly when some label asked for
    is not a column of the frame. *)
Theorem force_order_reports_iff (features : DataFrame) (order : list string) :
  snd (force_order features order) <> [] <->
  exists c, In c order /\ ~ In c (columns features).
Proof.
  split.
  - intros Hrendered.
    destruct (missing features order) as [|c cs] eqn:Hmiss.
    + exfalso. apply Hrendered.
      destruct (force_order_present features order) as (sel & -> & _);
        [|reflexivity].
      intros c Hc Hnone.
      pose proof (missing_In _ _ _ Hc Hnone) as Hin.
      rewrite Hmiss in Hin. destruct Hin.
    + exists c.
      assert (Hin : In c (missing features order))
        by (rewrite Hmiss; left; reflexivity).
      unfold missing in Hin. apply filter_In in Hin.
      destruct Hin as [Hc Hnone]. split; [exact Hc|].
      rewrite <- lookup_In_columns.
      destruct (lookup c features); [discriminate Hnone | tauto].
  - intros (c & Hc & Habsent). unfold force_order, getitem_columns.
    rewrite (take_columns_None _ _ c Hc); [simpl; discriminate|].
    destruct (lookup c features) eqn:E; [|reflexivity].
    exfalso. apply Habsent. apply lookup_In_columns. rewrite E. discriminate.
Qed.

(** Reordering twice is reordering once. *)
Theorem force_order_idempotent (features : DataFrame) (order : list string) :
  force_order (fst (force_order features order)) order
  = force_order features order.
Proof.
  unfold force_order at 2 3, getitem_columns.
  destruct (take_columns features order) as [sel|] eqn:Hsel; simpl;
    [|unfold force_order, getitem_columns; rewrite Hsel; reflexivity].
  assert (Hpresent : forall c, In c order -> lookup c features <> None).
  { intros c Hc Hnone. rewrite (take_columns_None _ _ c Hc Hnone) in Hsel.
    discriminate Hsel. }
  destruct (take_columns_Some features order Hpresent)
    as (sel' & Hsel' & _ & Hlook).
  rewrite Hsel in Hsel'. injection Hsel' as <-.
  unfold force_order, getitem_columns.
  rewrite (take_columns_ext sel features order Hlook), Hsel. reflexivity.
Qed.

Lemma lookup_Permutation (d d' : DataFrame) :
  Permutation d d' -> NoDup (columns d) ->
  forall c, lookup c d' = lookup c d.
Proof.
  induction 1 as [|[k v] l l' Hperm IH|[k1 v1] [k2 v2] l|l l' l'' H1 IH1 H2 IH2];
    intros Hnd c; simpl in *.
  - reflexivity.
  - inversion Hnd; subst. rewrite IH by assumption. reflexivity.
  - inversion Hnd as [|? ? Hnotin _]; subst.
    destruct (String.eqb k1 c) eqn:E1, (String.eqb k2 c) eqn:E2;
      try reflexivity.
    apply String.eqb_eq in E1. apply String.eqb_eq in E2. subst.
    exfalso. apply Hnotin. left. reflexivity.
  - rewrite IH2, IH1; [reflexivity | assumption |].
    unfold columns in *.
    apply (Permutation_NoDup (Permutation_map fst H1) Hnd).
Qed.

(** The order in which the dict was written does not matter.  Two dicts with
    the same items (and, as in any dict, no key twice) make the reordering
    block render the same, and leave the same frame whenever every label
    asked for is a key. *)
Theorem dict_order_is_irrelevant
  (data data' : list (string * scalar)) (order : list string) :
  Permutation data data' ->
  NoDup (columns data) ->
  snd (force_order (pd_DataFrame data') order)
  = snd (force_order (pd_DataFrame data) order) /\
  ((forall c, In c order -> In c (columns data)) ->
   force_order (pd_DataFrame data') order
   = force_order (pd_DataFrame data) order).
Proof.
  intros Hperm Hnd. unfold pd_DataFrame.
  pose proof (lookup_Permutation _ _ Hperm Hnd) as Hlook.
  assert (Htake : take_columns data' order = take_columns data order)
    by (apply take_columns_ext; intros; apply Hlook).
  assert (Hmiss : missing data' order = missing data order)
    by (apply missing_ext; intros; apply Hlook).
  unfold force_order, getitem_columns. rewrite Htake, Hmiss. split.
  - destruct (take_columns data order); reflexivity.
  - intros Hall.
    destruct (take_columns_Some data order) as (sel & -> & _); [|reflexivity].
    intros c Hc. apply lookup_In_columns. apply Hall. exact Hc.
Qed.

Lemma dict_order_is_irrelevant_witness :
  force_order (pd_DataFrame reversed_data) expected_order
  = (default_record, []).
Proof.
  refine (proj2 (dict_order_is_irrelevant default_record reversed_data
                   expected_order _ _) _).
  - apply Permutation_rev.
  - repeat constructor; simpl; intuition discriminate.
  - simpl. tauto.
Defined.

(** The record of a valid sidebar lies in the domain of the data model: the
    three measurements inside the bounds their inputs declare, the three
    flags 0 or 1, a flag being 1 exactly for the choice "Yes" and 0 exactly
    for the choice "No". *)
Theorem record_in_domain (w : Widgets) :
  in_bounds haemoglobin_widget (haemoglobin_state w) ->
  in_bounds hba1c_widget (hba1c_state w) ->
  in_bounds bmi_widget (bmi_state w) ->
  is_option active_neo_widget (active_neo_state w) ->
  is_option htn_widget (htn_state w) ->
  is_option cvd_widget (cvd_state w) ->
  exists (haemoglobin hba1c bmi : Q) (active_neo history_cv hypertension : Z),
    fst (user_input_features w)
    = [ ("Haemoglobin", PyFloat haemoglobin);
        ("Active.neovascularisation", PyInt active_neo);
        ("History.of.cardiovascular.disease", PyInt history_cv);
        ("HbA1c", PyFloat hba1c);
        ("BMI", PyFloat bmi);
        ("Hypertension", PyInt hypertension) ] /\
    (50.0 <= haemoglobin /\ haemoglobin <= 200.0) /\
    (3.0 <= hba1c /\ hba1c <= 20.0) /\
    (10.0 <= bmi /\ bmi <= 60.0) /\
    ((active_neo = 1%Z /\
      selectbox active_neo_widget (active_neo_state w) = "Yes") \/
     (active_neo = 0%Z /\
      selectbox active_neo_widget (active_neo_state w) = "No")) /\
    ((history_cv = 1%Z /\ selectbox cvd_widget (cvd_state w) = "Yes") \/
     (history_cv = 0%Z /\ selectbox cvd_widget (cvd_state w) = "No")) /\
    ((hypertension = 1%Z /\ selectbox htn_widget (htn_state w) = "Yes") \/
     (hypertension = 0%Z /\ selectbox htn_widget (htn_state w) = "No")).
Proof.
  intros Hhb Hhba1c Hbmi Hneo Hhtn Hcvd.
  assert (Hflag : forall choice,
             In choice ["No"; "Yes"] ->
             (yes_to_int choice = 1%Z /\ choice = "Yes") \/
             (yes_to_int choice = 0%Z /\ choice = "No")).
  { intros choice [<-|[<-|[]]]; [right | left]; split; reflexivity. }
  do 6 eexists. split; [apply user_input_features_record|].
  split; [exact Hhb|]. split; [exact Hhba1c|]. split; [exact Hbmi|].
  split; [apply Hflag; exact Hneo|].
  split; apply Hflag; assumption.
Qed.

Lemma record_in_domain_witness :
  exists (haemoglobin hba1c bmi : Q) (active_neo history_cv hypertension : Z),
    fst (user_input_features edited)
    = [ ("Haemoglobin", PyFloat haemoglobin);
        ("Active.neovascularisation", PyInt active_neo);
        ("History.of.cardiovascular.disease", PyInt history_cv);
        ("HbA1c", PyFloat hba1c);
        ("BMI", PyFloat bmi);
        ("Hypertension", PyInt hypertension) ] /\
    (50.0 <= haemoglobin /\ haemoglobin <= 200.0) /\
    (3.0 <= hba1c /\ hba1c <= 20.0) /\
    (10.0 <= bmi /\ bmi <= 60.0) /\
    ((active_neo = 1%Z /\
      selectbox active_neo_widget (active_neo_state edited) = "Yes") \/
     (active_neo = 0%Z /\
      selectbox active_neo_widget (active_neo_state edited) = "No")) /\
    ((history_cv = 1%Z /\ selectbox cvd_widget (cvd_state edited) = "Yes") \/
     (history_cv = 0%Z /\ selectbox cvd_widget (cvd_state edited) = "No")) /\
    ((hypertension = 1%Z /\ selectbox htn_widget (htn_state edited) = "Yes")
     \/
     (hypertension = 0%Z /\ selectbox htn_widget (htn_state edited) = "No")).
Proof.
  apply (record_in_domain edited);
    unfold in_bounds, is_option, Qle; simpl; first [lia | tauto].
Defined.

(** * Further properties of the predictor *)

Lemma calls_app (t u : Trace) :
  calls (t ++ u)%list = (calls t ++ calls u)%list.
Proof.
  induction t as [|[|] t IH]; simpl; try rewrite IH; reflexivity.
Qed.

Lemma calls_none (t : Trace) :
  forallb (fun ev => negb (is_call ev)) t = true -> calls t = [].
Proof.
  induction t as [|[|] t IH]; simpl; intros H;
    [reflexivity | apply IH; exact H | discriminate H].
Qed.

(** One press, at most one call.  A press hands the collected frame to the
    classifier exactly once when the handle is a truthy object, and never
    otherwise; a loaded but falsy object is reported as "Model not loaded"
    like a missing one. *)
Theorem press_calls_classifier_once (model : option Model) (df : DataFrame) :
  calls (predict_button model df)
  = match model with
    | Some m => if truthy m then [df] else []
    | None => []
    end /\
  (calls (predict_button model df) = [] ->
   predict_button model df = [St (error (Lit not_loaded))]).
Proof.
  destruct model as [m|]; simpl; [|split; reflexivity].
  destruct (truthy m); [|split; reflexivity].
  destruct (prediction_proba m df) as [e|p] eqn:Hp.
  - rewrite (try_predict_failed _ _ _ Hp). split; [reflexivity|].
    intros H. discriminate H.
  - destruct (try_predict_estimated _ _ _ Hp) as (rest & -> & _ & Hcalls).
    simpl. rewrite (calls_none _ Hcalls). split; [reflexivity|].
    intros H. discriminate H.
Qed.

(** The page reads two fields only.  Apart from the classifier's answer, what
    a press renders depends on the record through its
    Active.neovascularisation and HbA1c columns alone: two records on which
    the classifier answers alike and which agree on these two columns give
    the same page. *)
Theorem page_reads_two_fields (m : Model) (df1 df2 : DataFrame) :
  prediction_proba m df1 = prediction_proba m df2 ->
  getitem_cell df1 "Active.neovascularisation"
  = getitem_cell df2 "Active.neovascularisation" ->
  getitem_cell df1 "HbA1c" = getitem_cell df2 "HbA1c" ->
  rendered (predict_button (Some m) df1)
  = rendered (predict_button (Some m) df2).
Proof.
  intros Hp Hneo Hh. simpl. destruct (truthy m); [|reflexivity].
  unfold try_predict, predict_body, call_prediction_proba, bind; simpl.
  rewrite Hp, Hneo, Hh.
  destruct (prediction_proba m df2) as [e|p]; simpl; [reflexivity|].
  unfold st_progress, emit, lift, when, ret, raise; simpl.
  destruct (getitem_cell df2 "Active.neovascularisation") as [e1|a];
    destruct (getitem_cell df2 "HbA1c") as [e2|h]; simpl;
    run_cases; reflexivity.
Qed.

Lemma page_reads_two_fields_witness :
  rendered (predict_button (Some (constant_model 0.2)) scenario_a)
  = rendered (predict_button (Some (constant_model 0.2))
                [ ("HbA1c", PyFloat 9.0); ("BMI", PyFloat 40.0);
                  ("Active.neovascularisation", PyInt 1) ]).
Proof.
  apply page_reads_two_fields; reflexivity.
Defined.

Lemma In_advisories_success (t : Trace) (s : string) :
  In (St (success s)) t <-> In (success s) (advisories t).
Proof.
  induction t as [|ev t IH]; simpl; [tauto|].
  destruct ev as [[]|]; simpl; rewrite <- ?IH; split; intros H;
    first [ destruct H as [H|H];
            [ first [discriminate H | left; inversion H; reflexivity]
            | first [right; exact H | exact H] ]
          | right; exact H
          | exact H ].
Qed.

Lemma completed_has_fields (m : Model) (df : DataFrame) :
  snd (predict_body m df) = inr tt ->
  exists neo hba1c,
    getitem_cell df "Active.neovascularisation" = inr neo /\
    getitem_cell df "HbA1c" = inr hba1c.
Proof.
  unfold getitem_cell.
  destruct (lookup "Active.neovascularisation" df) as [a|] eqn:Ea;
    destruct (lookup "HbA1c" df) as [h|] eqn:Eh;
    try (intros _; do 2 eexists; split; reflexivity);
    run_unfold; rewrite ?Ea, ?Eh;
    destruct (prediction_proba m df); simpl;
    run_cases; intros H; discriminate H.
Qed.

(** The reassurance rule.  The reassurance is on the page only for a
    percentage strictly below 50, hence only beside a "Low Risk" card; on a
    page whose prediction ran to its end it is there exactly for those
    percentages. *)
Theorem reassurance_rule (m : Model) (df : DataFrame) (p : Q) :
  truthy m = true ->
  prediction_proba m df = inr p ->
  let page := predict_button (Some m) df in
  (forall s, In (St (success s)) page ->
             p * 100 < 50 /\ cards page = [(LowRisk, p * 100)]) /\
  (snd (predict_body m df) = inr tt ->
   (In (St (success reassurance)) page <-> p * 100 < 50)).
Proof.
  intros Htruthy Hp page. subst page. simpl. rewrite Htruthy. split.
  - intros s Hin. apply (success_only_below _ _ _ _ Hp) in Hin.
    apply Qltb_lt in Hin. split; [exact Hin|].
    rewrite (cards_try_predict _ _ _ Hp).
    assert (Hc : Qltb 50 (p * 100) = false).
    { apply Qltb_ge. apply Qlt_le_weak. exact Hin. }
    rewrite Hc. reflexivity.
  - intros Hdone.
    destruct (completed_has_fields _ _ Hdone) as (neo & hba1c & Hn & Hh).
    destruct (advisories_completed _ _ _ _ Hdone Hn Hh) as (p' & Hp' & Hadv).
    rewrite Hp in Hp'. injection Hp' as <-.
    rewrite In_advisories_success, Hadv, <- Qltb_lt.
    destruct (Qeq_bool (scalar_Q neo) 1), (Qltb 8.0 (scalar_Q hba1c)),
      (Qltb (p * 100) 50); simpl; split; intros H;
      try discriminate H; auto;
      repeat (destruct H as [H|H]; [discriminate H|]); destruct H.
Qed.

Lemma reassurance_rule_witness :
  In (St (success reassurance))
     (predict_button (Some (constant_model 0.2)) scenario_a) <->
  0.2 * 100 < 50.
Proof.
  refine (proj2 (reassurance_rule (constant_model 0.2) scenario_a 0.2 _ _) _);
    reflexivity.
Defined.

(** A bar Streamlit rejects.  When the classifier's answer puts the
    percentage at -1 or below, the card -- "Low Risk", with the negative
    percentage -- is already on the page when [st.progress] rejects its
    value; the press ends with the prediction error carrying that rejection,
    without bar or advisories. *)
Theorem rejected_bar_leaves_card (m : Model) (df : DataFrame) (p : Q) :
  truthy m = true ->
  prediction_proba m df = inr p ->
  p * 100 <= -1 ->
  predict_button (Some m) df
  = [ PredictProba df;
      St (markdown "---");
      St (subheader "Prediction Result");
      St (result_card LowRisk (p * 100));
      St (subheader "Risk Analysis");
      St (write "Risk Confidence Level:");
      St (error (Fmt prediction_error_prefix
                   (StreamlitAPIException (py_int (p * 100)))));
      St (write check_columns_hint) ] /\
  (py_int (p * 100) <= -1)%Z.
Proof.
  intros Htruthy Hp Hneg.
  assert (Hcap : p * 100 <= 100).
  { apply Qle_trans with (y := -1); [exact Hneg|].
    unfold Qle. simpl. lia. }
  assert (Hint : (py_int (p * 100) <= -1)%Z).
  { apply py_int_le. exact Hneg. }
  assert (Hlow : Qltb 50 (p * 100) = false).
  { apply Qltb_ge. apply Qle_trans with (y := -1); [exact Hneg|].
    unfold Qle. simpl. lia. }
  assert (Hbar : ((0 <=? py_int (p * 100)) && (py_int (p * 100) <=? 100))%Z
                 = false).
  { apply andb_false_iff. left. apply Z.leb_gt. lia. }
  split; [|exact Hint].
  run_unfold. rewrite Htruthy. run_unfold. rewrite Hp. simpl.
  rewrite (py_min_below _ _ Hcap), Hlow. simpl. rewrite Hbar. reflexivity.
Qed.

Lemma rejected_bar_leaves_card_witness :
  predict_button (Some (constant_model (-0.5))) default_record
  = [ PredictProba default_record;
      St (markdown "---");
      St (subheader "Prediction Result");
      St (result_card LowRisk (-0.5 * 100));
      St (subheader "Risk Analysis");
      St (write "Risk Confidence Level:");
      St (error (Fmt prediction_error_prefix (StreamlitAPIException (-50))));
      St (write check_columns_hint) ].
Proof.
  refine (proj1 (rejected_bar_leaves_card (constant_model (-0.5))
                   default_record (-0.5) _ _ _)).
  - reflexivity.
  - reflexivity.
  - unfold Qle. simpl. lia.
Defined.

(** A frame without an advisory column.  On a frame that lacks the
    Active.neovascularisation column, or has it but lacks HbA1c, the card and
    the bar are rendered, then the lookup raises: the press ends with the
    prediction error carrying the [KeyError] for that column, and the
    reassurance is never reached. *)
Theorem missing_advisory_column_is_caught
  (m : Model) (df : DataFrame) (p : Q) :
  truthy m = true ->
  prediction_proba m df = inr p ->
  0 <= p * 100 ->
  let shown :=
    (PredictProba df
     :: result_column (p * 100)
     ++ [ St (progress (py_int (py_min (p * 100) 100)));
          St (write "**Contributing Factors:**") ])%list in
  (lookup "Active.neovascularisation" df = None ->
   predict_button (Some m) df
   = (shown
      ++ [ St (error (Fmt prediction_error_prefix
                        (KeyError ["Active.neovascularisation"])));
           St (write check_columns_hint) ])%list) /\
  (forall neo,
      lookup "Active.neovascularisation" df = Some neo ->
      lookup "HbA1c" df = None ->
      predict_button (Some m) df
      = (shown
         ++ (if Qeq_bool (scalar_Q neo) 1
             then [St (warning neo_warning)] else [])
         ++ [ St (error (Fmt prediction_error_prefix (KeyError ["HbA1c"])));
              St (write check_columns_hint) ])%list).
Proof.
  intros Htruthy Hp Hpos shown. subst shown.
  assert (Hbar : ((0 <=? py_int (py_min (p * 100) 100))
                  && (py_int (py_min (p * 100) 100) <=? 100))%Z = true).
  { apply andb_true_iff. split; apply Z.leb_le.
    - apply py_int_nonneg. unfold py_min.
      destruct (Qltb 100 (p * 100)); [discriminate | exact Hpos].
    - apply indicator_le_100. }
  split.
  - intros Hn. run_unfold. rewrite Htruthy. run_unfold. rewrite Hp. simpl.
    rewrite Hbar. simpl. rewrite Hn. unfold result_column.
    destruct (Qltb 50 (p * 100)); reflexivity.
  - intros neo Hn Hh. run_unfold. rewrite Htruthy. run_unfold.
    rewrite Hp. simpl. rewrite Hbar. simpl. rewrite Hn. simpl. rewrite Hh.
    unfold result_column.
    destruct (Qltb 50 (p * 100)); destruct (Qeq_bool (scalar_Q neo) 1);
      reflexivity.
Qed.

Lemma missing_advisory_column_is_caught_witness :
  predict_button (Some (constant_model 0.2)) misspelt
  = [ PredictProba misspelt;
      St (markdown "---");
      St (subheader "Prediction Result");
      St (result_card LowRisk (0.2 * 100));
      St (subheader "Risk Analysis");
      St (write "Risk Confidence Level:");
      St (progress 20);
      St (write "**Contributing Factors:**");
      St (error (Fmt prediction_error_prefix (KeyError ["HbA1c"])));
      St (write check_columns_hint) ].
Proof.
  refine (proj2 (missing_advisory_column_is_caught (constant_model 0.2)
                   misspelt 0.2 _ _ _) (PyInt 0) _ _).
  - reflexivity.
  - reflexivity.
  - unfold Qle. simpl. lia.
  - reflexivity.
  - reflexivity.
Defined.

(** * Sessions *)

Lemma script_cached (joblib_load : exn + Model)
  (stored : option Model * Trace) (w : Widgets) (clicked : bool) :
  script joblib_load (Some stored) w clicked
  = ((snd stored
      ++ (if clicked
          then predict_button (fst stored) (fst (user_input_features w))
          else []))%list,
     Some stored).
Proof.
  unfold script. rewrite user_input_features_silent. reflexivity.
Qed.

(** With a populated cache every rerun replays the stored load and leaves the
    cache as it found it, whatever is on disk. *)
Lemma session_cached (stored : option Model * Trace) (steps : list Interaction) :
  snd (session (Some stored) steps) = Some stored /\
  Forall2
    (fun i t =>
       t = (snd stored
            ++ (if pressed i
                then predict_button (fst stored)
                       (fst (user_input_features (sidebar i)))
                else []))%list)
    steps (fst (session (Some stored) steps)).
Proof.
  induction steps as [|i steps [IHc IHt]]; cbn [session].
  - split; [reflexivity | constructor].
  - rewrite script_cached. cbn [fst snd]. split; [exact IHc|].
    constructor; [reflexivity | exact IHt].
Qed.

(** A failed load disables the session.  When [joblib.load] raises at the
    first run, the handle stays [None] for all later runs, whatever the file
    system holds by then: every run replays the load error, every press adds
    "Model not loaded", and the classifier is never called. *)
Theorem failed_load_disables_session
  (e : exn) (first : Interaction) (steps : list Interaction) :
  on_disk first = inl e ->
  snd (session None (first :: steps))
  = Some (None, [St (error (Fmt load_failed_prefix e))]) /\
  Forall2
    (fun i t =>
       t = St (error (Fmt load_failed_prefix e))
           :: (if pressed i then [St (error (Lit not_loaded))] else []))
    (first :: steps) (fst (session None (first :: steps))) /\
  Forall (fun t => calls t = []) (fst (session None (first :: steps))).
Proof.
  intros Hdisk.
  assert (Hfirst : script (on_disk first) None (sidebar first) (pressed first)
                   = (St (error (Fmt load_failed_prefix e))
                      :: (if pressed first
                          then [St (error (Lit not_loaded))] else []),
                      Some (None, [St (error (Fmt load_failed_prefix e))]))).
  { rewrite Hdisk. unfold script. rewrite user_input_features_silent.
    reflexivity. }
  destruct (session_cached (None, [St (error (Fmt load_failed_prefix e))])
              steps) as [Hc Ht].
  assert (Hall : Forall2
    (fun i t =>
       t = St (error (Fmt load_failed_prefix e))
           :: (if pressed i then [St (error (Lit not_loaded))] else []))
    (first :: steps) (fst (session None (first :: steps)))).
  { cbn [session]. rewrite Hfirst. cbn [fst snd].
    constructor; [reflexivity | exact Ht]. }
  split; [cbn [session]; rewrite Hfirst; exact Hc|]. split; [exact Hall|].
  clear -Hall. induction Hall as [|i t steps' ts -> _ IH]; constructor; auto.
  destruct (pressed i); reflexivity.
Qed.

Lemma failed_load_disables_session_witness :
  Forall2
    (fun i t =>
       t = St (error (Fmt load_failed_prefix
                        (Exception "No such file or directory")))
           :: (if pressed i then [St (error (Lit not_loaded))] else []))
    [artifact_missing; press_after_repair]
    (fst (session None [artifact_missing; press_after_repair])).
Proof.
  exact (proj1 (proj2 (failed_load_disables_session
                         (Exception "No such file or directory")
                         artifact_missing [press_after_repair] eq_refl))).
Defined.

(** The loaded model serves the session.  When [joblib.load] returns a
    handle at the first run, that handle answers every press of the session
    -- also after the file has gone or changed -- and no load error is ever
    rendered. *)
Theorem loaded_model_serves_session
  (m : Model) (first : Interaction) (steps : list Interaction) :
  on_disk first = inr m ->
  snd (session None (first :: steps)) = Some (Some m, []) /\
  Forall2
    (fun i t =>
       t = if pressed i
           then predict_button (Some m) (fst (user_input_features (sidebar i)))
           else [])
    (first :: steps) (fst (session None (first :: steps))).
Proof.
  intros Hdisk.
  assert (Hfirst : script (on_disk first) None (sidebar first) (pressed first)
                   = (if pressed first
                      then predict_button (Some m)
                             (fst (user_input_features (sidebar first)))
                      else [],
                      Some (Some m, []))).
  { rewrite Hdisk. unfold script. rewrite user_input_features_silent.
    reflexivity. }
  destruct (session_cached (Some m, []) steps) as [Hc Ht].
  cbn [session]. rewrite Hfirst. cbn [fst snd]. split; [exact Hc|].
  constructor; [reflexivity | exact Ht].
Qed.

Lemma loaded_model_serves_session_witness :
  Forall2
    (fun i t =>
       t = if pressed i
           then predict_button (Some (constant_model 0.2))
                  (fst (user_input_features (sidebar i)))
           else [])
    [artifact_present; press_after_removal]
    (fst (session None [artifact_present; press_after_removal])).
Proof.
  exact (proj2 (loaded_model_serves_session (constant_model 0.2)
                  artifact_present [press_after_removal] eq_refl)).
Defined.

(** * The page with the product rounded *)

Ltac run_unfold_with :=
  unfold predict_button_with, try_predict_with, predict_body_with,
    call_prediction_proba, st_progress, bind, emit, lift, when, ret, raise,
    getitem_cell;
  simpl.

(** Without rounding the two embeddings of the handler coincide. *)
Lemma predict_button_with_exact (model : option Model) (df : DataFrame) :
  predict_button_with (fun x => x) model df = predict_button model df.
Proof. reflexivity. Qed.

Lemma nearest_on_grid_monotone (k : positive) (x y : Q) :
  x <= y -> nearest_on_grid k x <= nearest_on_grid k y.
Proof.
  intros Hxy. unfold nearest_on_grid, Qle. cbn [Qnum Qden].
  apply Z.mul_le_mono_nonneg_r; [lia|].
  apply Qfloor_resp_le. apply Qplus_le_l.
  apply Qmult_le_compat_r; [exact Hxy|]. unfold Qle. simpl. lia.
Qed.

Lemma indicators_try_predict_with
  (round : Q -> Q) (m : Model) (df : DataFrame) (p : Q) :
  prediction_proba m df = inr p ->
  indicators (try_predict_with round m df)
  = if ((0 <=? py_int (py_min (round (p * 100)%Q) 100%Q))
        && (py_int (py_min (round (p * 100)%Q) 100%Q) <=? 100))%Z
    then [py_int (py_min (round (p * 100)) 100)]
    else [].
Proof.
  intros Hp. run_unfold_with. rewrite Hp. simpl.
  run_cases; reflexivity.
Qed.

(** The bar shows the displayed percentage rounded down.  With
    [risk_percent] the rounded product, a percentage between 0 and 100 draws
    the bar exactly once, at the integer [v] with
    [v <= risk_percent < v + 1]. *)
Theorem bar_rounds_down
  (round : Q -> Q) (m : Model) (df : DataFrame) (p : Q) :
  truthy m = true ->
  prediction_proba m df = inr p ->
  0 <= round (p * 100) /\ round (p * 100) <= 100 ->
  exists v : Z,
    indicators (predict_button_with round (Some m) df) = [v] /\
    inject_Z v <= round (p * 100) /\ round (p * 100) < inject_Z v + 1.
Proof.
  intros Htruthy Hp [Hpos Hcap].
  exists (py_int (round (p * 100))). split.
  - simpl. rewrite Htruthy, (indicators_try_predict_with _ _ _ _ Hp).
    rewrite (py_min_below _ _ Hcap).
    assert (H0 : (0 <= py_int (round (p * 100)%Q))%Z)
      by (apply py_int_nonneg; exact Hpos).
    assert (H1 : (py_int (round (p * 100)%Q) <= 100)%Z)
      by (apply py_int_le; exact Hcap).
    apply Z.leb_le in H0. apply Z.leb_le in H1. rewrite H0, H1. reflexivity.
  - clear Hcap Hp. destruct (round (p * 100)) as [a d].
    unfold Qle in Hpos. simpl in Hpos.
    unfold py_int, Qle, Qlt. simpl.
    pose proof (Z.quot_rem' a (Z.pos d)) as Hqr.
    pose proof (Z.rem_bound_pos a (Z.pos d) ltac:(lia) ltac:(lia)) as Hr.
    split; nia.
Qed.

(** The single-precision answer nearest to 0.29: the exact product is just
    below 29, the rounded one is 29, and the bar reads 29. *)
Lemma bar_rounds_down_witness :
  exists v : Z,
    indicators (predict_button_with (nearest_on_grid 524288)
                  (Some (constant_model float32_0_29)) scenario_a) = [v] /\
    inject_Z v <= nearest_on_grid 524288 (float32_0_29 * 100) /\
    nearest_on_grid 524288 (float32_0_29 * 100) < inject_Z v + 1.
Proof.
  apply (bar_rounds_down (nearest_on_grid 524288)
           (constant_model float32_0_29) scenario_a float32_0_29).
  - reflexivity.
  - reflexivity.
  - split; apply Qle_bool_imp_le; vm_compute; reflexivity.
Defined.

(** From sidebar to page.  Let the rounding of the product be monotone and
    leave 0 and 100 as they are.  Then for every sidebar and every handle
    that answers the collected record with a probability, a press renders,
    in this order: the rule, the card with the rounded product as its
    percentage, the bar at that percentage rounded down, and then the
    neovascularisation warning exactly when that box reads "Yes", the HbA1c
    warning exactly when the HbA1c input is above 8.0, and the reassurance
    exactly when the percentage is below 50 -- and no error. *)
Theorem valid_press_renders_full_page
  (round : Q -> Q) (w : Widgets) (m : Model) (p : Q) :
  (forall x y, x <= y -> round x <= round y) ->
  round 0 == 0 ->
  round 100 == 100 ->
  truthy m = true ->
  prediction_proba m (fst (user_input_features w)) = inr p ->
  0 <= p /\ p <= 1 ->
  let risk_percent := round (p * 100) in
  (0 <= risk_percent /\ risk_percent <= 100) /\
  predict_button_with round (Some m) (fst (user_input_features w))
  = (PredictProba (fst (user_input_features w))
     :: result_column risk_percent
     ++ [ St (progress (py_int risk_percent));
          St (write "**Contributing Factors:**") ]
     ++ (if String.eqb (selectbox active_neo_widget (active_neo_state w)) "Yes"
         then [St (warning neo_warning)] else [])
     ++ (if Qltb 8.0 (number_input hba1c_widget (hba1c_state w))
         then [St (warning hba1c_warning)] else [])
     ++ (if Qltb risk_percent 50 then [St (success reassurance)] else []))%list.
Proof.
  intros Hmono H0 H100 Htruthy Hp [Hp0 Hp1] risk_percent.
  assert (Hpos : 0 <= risk_percent).
  { unfold risk_percent. rewrite <- H0. apply Hmono.
    apply Qmult_le_0_compat; [exact Hp0|discriminate]. }
  assert (Hcap : risk_percent <= 100).
  { unfold risk_percent. rewrite <- H100 at 2. apply Hmono.
    setoid_replace 100 with (1 * 100) at 2 by reflexivity.
    apply Qmult_le_compat_r; [exact Hp1|discriminate]. }
  split; [split; assumption|].
  assert (Hbar : ((0 <=? py_int (py_min risk_percent 100))
                  && (py_int (py_min risk_percent 100) <=? 100))%Z = true).
  { apply andb_true_iff. split; apply Z.leb_le.
    - apply py_int_nonneg. rewrite (py_min_below _ _ Hcap). exact Hpos.
    - apply indicator_le_100. }
  pose proof (user_input_features_record w) as Hrec.
  set (record := fst (user_input_features w)) in *.
  set (choice := selectbox active_neo_widget (active_neo_state w)) in *.
  set (hba1c := number_input hba1c_widget (hba1c_state w)) in *.
  assert (Hn : lookup "Active.neovascularisation" record
               = Some (PyInt (yes_to_int choice)))
    by (rewrite Hrec; reflexivity).
  assert (Hh : lookup "HbA1c" record = Some (PyFloat hba1c))
    by (rewrite Hrec; reflexivity).
  clear Hrec. clearbody record choice hba1c.
  run_unfold_with. rewrite Htruthy. run_unfold_with. rewrite Hp. simpl.
  fold risk_percent. rewrite Hbar. simpl. rewrite Hn, Hh. simpl.
  rewrite (py_min_below _ _ Hcap).
  unfold result_column, yes_to_int.
  destruct (String.eqb choice "Yes"); destruct (Qltb 8.0 hba1c);
    destruct (Qltb risk_percent 50); destruct (Qltb 50 risk_percent);
    reflexivity.
Qed.

(** The same answer on an edited sidebar: card and bar read 29, where the
    exact product would have read 28. *)
Lemma valid_press_renders_full_page_witness :
  predict_button_with (nearest_on_grid 524288)
    (Some (constant_model float32_0_29)) (fst (user_input_features edited))
  = [ PredictProba (fst (user_input_features edited));
      St (markdown "---");
      St (subheader "Prediction Result");
      St (result_card LowRisk
            (nearest_on_grid 524288 (float32_0_29 * 100)));
      St (subheader "Risk Analysis");
      St (write "Risk Confidence Level:");
      St (progress 29);
      St (write "**Contributing Factors:**");
      St (warning neo_warning);
      St (warning hba1c_warning);
      St (success reassurance) ].
Proof.
  refine (proj2 (valid_press_renders_full_page (nearest_on_grid 524288)
                   edited (constant_model float32_0_29) float32_0_29
                   _ _ _ _ _ _)).
  - apply nearest_on_grid_monotone.
  - reflexivity.
  - reflexivity.
  - reflexivity.
  - reflexivity.
  - split; unfold Qle; simpl; lia.
Defined.
